(** * page_objects: the Page Object pattern over a Selenium webdriver

    A shallow embedding of [page_objects/__init__.py].  The webdriver is an
    external collaborator: every call the library makes to it is recorded in
    a trace of [Event]s and answered by a [Browser], a record of response
    functions that may depend on everything that happened before.  Python
    exceptions are the [Raised] outcome; the trace survives a raise. *)

From Stdlib Require Import String List ZArith Bool Lia.
Import ListNotations.
Local Open Scope string_scope.
Local Open Scope list_scope.

(** ** Values of the object language *)

(** [selenium.webdriver.common.by.By]: the locator strategies used by
    [_LOCATOR_MAP]. *)
Inductive By : Type :=
| CSS_SELECTOR
| ID
| NAME
| XPATH
| LINK_TEXT
| PARTIAL_LINK_TEXT
| TAG_NAME
| CLASS_NAME.

(** A webdriver handle.  [attr_root_uri] is the optional ambient attribute
    [root_uri] of the driver object: [None] when the attribute is missing,
    [Some None] when it is set to Python's [None]. *)
Record WebDriver : Type := mkWebDriver {
  session : nat;
  attr_root_uri : option (option string)
}.

(** A located element, with the back-reference [parent] to its driver. *)
Record WebElement : Type := mkWebElement {
  element_id : nat;
  parent : WebDriver
}.

(** An expected condition from [selenium.webdriver.support]: an opaque
    predicate factory, known by its name only. *)
Inductive ExpectedCondition : Type :=
| EC (ec_name : string).

(** The exceptions that occur. *)
Inductive Exn : Type :=
| ValueError (msg : string)
| KeyError (key : string)
| TypeError (msg : string)
| AttributeError (msg : string)
| NoSuchElementException
| TimeoutException
| WebDriverException (msg : string)
| StopIteration.

Inductive Outcome (A : Type) : Type :=
| Returned (a : A)
| Raised (e : Exn).
Arguments Returned {A} a.
Arguments Raised {A} e.

(** The two descriptor classes; [MultiPageElement] subclasses [PageElement]
    and overrides [find] and [__set__]. *)
Inductive Class : Type :=
| PageElement_cls
| MultiPageElement_cls.

(** The attributes of a descriptor object, as set by [PageElement.__init__],
    together with its class. *)
Record PageElement : Type := mkPageElement {
  cls : Class;
  locator : By * string;
  has_context : bool;
  wait_condition : option ExpectedCondition;
  wait_time : Z
}.

(** A [PageObject] instance. *)
Record PageObject : Type := mkPageObject {
  w : WebDriver;
  root_uri : option string
}.

(** What a descriptor read can evaluate to.  [VLambda self instance] is the
    closure [lambda ctx: self.__get__(instance, owner, context=ctx)]. *)
Inductive Value : Type :=
| VNone
| VBool (b : bool)
| VElement (e : WebElement)
| VList (l : list WebElement)
| VLambda (self : PageElement) (instance : PageObject).

(** ** Truth value testing *)

Class Truthy (A : Type) : Type := truthy : A -> bool.

(** [None] is false; an object defining neither [__bool__] nor [__len__]
    (a [WebElement], a [PageObject], an expected condition) is true. *)
#[global] Instance Truthy_option_object {A : Type} : Truthy (option A) | 10 :=
  fun o => match o with Some _ => true | None => false end.

#[global] Instance Truthy_str : Truthy string :=
  fun s => match s with EmptyString => false | String _ _ => true end.

#[global] Instance Truthy_option_str : Truthy (option string) | 0 :=
  fun o => match o with Some s => truthy s | None => false end.

#[global] Instance Truthy_list {A : Type} : Truthy (list A) :=
  fun l => match l with [] => false | _ :: _ => true end.

#[global] Instance Truthy_Value : Truthy Value :=
  fun v =>
    match v with
    | VNone => false
    | VBool b => b
    | VElement _ => true
    | VList l => truthy l
    | VLambda _ _ => true
    end.

(** ** The driver and the trace of calls made to it *)

(** The object a query is sent to: [instance.w] or a context element. *)
Inductive Root : Type :=
| RootDriver (d : WebDriver)
| RootElement (e : WebElement).

Inductive Event : Type :=
| EFindElement (root : Root) (by_ : By) (selector : string)
| EFindElements (root : Root) (by_ : By) (selector : string)
| EWaitUntil (root : Root) (timeout : Z) (cond : ExpectedCondition)
             (loc : By * string)
| ESendKeys (e : WebElement) (keys : string)
| EGet (d : WebDriver) (url : string)
| ESwitchToFrame (d : WebDriver) (frame : WebElement)
| ESwitchToDefaultContent (d : WebDriver).

Definition Trace : Type := list Event.

(** The responses of the browser.  Each takes the trace so far, so that the
    page may change between two calls. *)
Record Browser : Type := mkBrowser {
  on_find_element : Trace -> Root -> By -> string -> Outcome WebElement;
  on_find_elements : Trace -> Root -> By -> string -> Outcome (list WebElement);
  on_until : Trace -> Root -> Z -> ExpectedCondition -> By * string -> Outcome Value;
  on_send_keys : Trace -> WebElement -> string -> Outcome unit;
  on_get : Trace -> WebDriver -> string -> Outcome unit;
  on_switch_to_frame : Trace -> WebDriver -> WebElement -> Outcome unit;
  on_switch_to_default_content : Trace -> WebDriver -> Outcome unit
}.

(** ** Computations: a trace is threaded, an exception may be raised *)

Definition M (A : Type) : Type := Trace -> Outcome A * Trace.

Definition ret {A : Type} (a : A) : M A := fun t => (Returned a, t).

Definition raise {A : Type} (e : Exn) : M A := fun t => (Raised e, t).

Definition bind {A B : Type} (m : M A) (k : A -> M B) : M B :=
  fun t =>
    match m t with
    | (Returned a, t') => k a t'
    | (Raised e, t') => (Raised e, t')
    end.

Declare Scope py_scope.
Delimit Scope py_scope with py.
Notation "x <- m ;; k" := (bind m (fun x => k))
  (at level 100, m at next level, right associativity) : py_scope.
Notation "m ;;; k" := (bind m (fun _ => k))
  (at level 100, right associativity) : py_scope.
Local Open Scope py_scope.

Definition Exn_eqb (a b : Exn) : bool :=
  match a, b with
  | ValueError _, ValueError _ => true
  | KeyError _, KeyError _ => true
  | TypeError _, TypeError _ => true
  | AttributeError _, AttributeError _ => true
  | NoSuchElementException, NoSuchElementException => true
  | TimeoutException, TimeoutException => true
  | WebDriverException _, WebDriverException _ => true
  | StopIteration, StopIteration => true
  | _, _ => false
  end.

(** [try: m  except exc: handler], where [exc] names an exception class:
    [Exn_eqb] compares classes, not messages. *)
Definition try_except {A : Type} (m : M A) (exc : Exn) (handler : M A) : M A :=
  fun t =>
    match m t with
    | (Returned a, t') => (Returned a, t')
    | (Raised e, t') => if Exn_eqb e exc then handler t' else (Raised e, t')
    end.

(** ** Dictionaries with string keys, in insertion order *)

Fixpoint dict_get {V : Type} (d : list (string * V)) (k : string) : option V :=
  match d with
  | [] => None
  | (k', v) :: rest => if String.eqb k k' then Some v else dict_get rest k
  end.

(** [d[k]] *)
Definition getitem {V : Type} (d : list (string * V)) (k : string) : Outcome V :=
  match dict_get d k with
  | Some v => Returned v
  | None => Raised (KeyError k)
  end.

(** Map PageElement constructor arguments to webdriver locator enums *)
Definition _LOCATOR_MAP : list (string * By) :=
  [ ("css", CSS_SELECTOR);
    ("id_", ID);
    ("name", NAME);
    ("xpath", XPATH);
    ("link_text", LINK_TEXT);
    ("partial_link_text", PARTIAL_LINK_TEXT);
    ("tag_name", TAG_NAME);
    ("class_name", CLASS_NAME) ].

(** ** class PageObject *)

(** [getattr(webdriver, 'root_uri', default)] *)
Definition getattr_root_uri (webdriver : WebDriver) (default : option string)
  : option string :=
  match attr_root_uri webdriver with
  | Some v => v
  | None => default
  end.

Definition PageObject__init__ (webdriver : WebDriver) (root_uri : option string)
  : PageObject :=
  {| w := webdriver;
     root_uri := if truthy root_uri then root_uri
                 else getattr_root_uri webdriver None |}.

(** [a or b] on an optional string [a] and a string [b]. *)
Definition or_str (a : option string) (b : string) : string :=
  match a with
  | Some s => if truthy a then s else b
  | None => b
  end.

(** ** Descriptor construction *)

(** [PageElement.__init__], also inherited by [MultiPageElement]: [cls_] is
    the class being instantiated and [kwargs] the keyword arguments other
    than [context], [wait_condition] and [wait_time]. *)
Definition PageElement__init__ (cls_ : Class) (context : bool)
    (wait_condition : option ExpectedCondition) (wait_time : Z)
    (kwargs : list (string * string)) : Outcome PageElement :=
  if negb (truthy kwargs) then Raised (ValueError "Please specify a locator")
  else if (1 <? length kwargs)%nat
  then Raised (ValueError "Please specify only one locator")
  else
    match kwargs with
    | (k, v) :: _ =>
        match getitem _LOCATOR_MAP k with
        | Returned by_ =>
            Returned {| cls := cls_;
                        locator := (by_, v);
                        has_context := context;
                        wait_condition := wait_condition;
                        wait_time := wait_time |}
        | Raised e => Raised e
        end
    | [] => Raised StopIteration
    end.

(** The defaults of the signature: [context=False, wait_condition=None,
    wait_time=5]. *)
Definition PageElement_new (kwargs : list (string * string)) : Outcome PageElement :=
  PageElement__init__ PageElement_cls false None 5%Z kwargs.

Definition MultiPageElement_new (kwargs : list (string * string)) : Outcome PageElement :=
  PageElement__init__ MultiPageElement_cls false None 5%Z kwargs.

(** Backwards compatibility with previous versions that used factory methods *)
Definition page_element := PageElement__init__ PageElement_cls.

Definition multi_page_element := PageElement__init__ MultiPageElement_cls.

(** ** class IframeElement *)

Record IframeElement : Type := mkIframeElement {
  iframe : WebElement;
  driver : WebDriver
}.

Definition IframeElement__init__ (iframe_element : option WebElement)
  : Outcome IframeElement :=
  match iframe_element with
  | None => Raised (ValueError "Please specify an iframe")
  | Some e => Returned {| iframe := e; driver := parent e |}
  end.

Section WithBrowser.

Variable browser : Browser.

(** *** Calls to the driver *)

Definition find_element (root : Root) (loc : By * string) : M WebElement :=
  fun t => (on_find_element browser t root (fst loc) (snd loc),
            t ++ [EFindElement root (fst loc) (snd loc)]).

Definition find_elements (root : Root) (loc : By * string) : M (list WebElement) :=
  fun t => (on_find_elements browser t root (fst loc) (snd loc),
            t ++ [EFindElements root (fst loc) (snd loc)]).

(** [WebDriverWait(root, timeout).until(cond(loc))] *)
Definition WebDriverWait_until (root : Root) (timeout : Z)
    (cond : ExpectedCondition) (loc : By * string) : M Value :=
  fun t => (on_until browser t root timeout cond loc,
            t ++ [EWaitUntil root timeout cond loc]).

Definition send_keys (e : WebElement) (value : string) : M unit :=
  fun t => (on_send_keys browser t e value, t ++ [ESendKeys e value]).

Definition webdriver_get (d : WebDriver) (url : string) : M unit :=
  fun t => (on_get browser t d url, t ++ [EGet d url]).

Definition switch_to_frame (d : WebDriver) (frame : WebElement) : M unit :=
  fun t => (on_switch_to_frame browser t d frame, t ++ [ESwitchToFrame d frame]).

Definition switch_to_default_content (d : WebDriver) : M unit :=
  fun t => (on_switch_to_default_content browser t d,
            t ++ [ESwitchToDefaultContent d]).

(** *** PageObject.get *)

Definition PageObject_get (self : PageObject) (uri : string) : M unit :=
  let root_uri := or_str (root_uri self) "" in
  webdriver_get (w self) (root_uri ++ uri).

(** *** PageElement and MultiPageElement *)

Definition PageElement_find (self : PageElement) (context : Root) : M Value :=
  try_except
    (e <- find_element context (locator self) ;; ret (VElement e))
    NoSuchElementException
    (ret VNone).

Definition MultiPageElement_find (self : PageElement) (context : Root) : M Value :=
  try_except
    (l <- find_elements context (locator self) ;; ret (VList l))
    NoSuchElementException
    (ret (VList [])).

(** [self.find], by the class of [self]. *)
Definition find (self : PageElement) (context : Root) : M Value :=
  match cls self with
  | PageElement_cls => PageElement_find self context
  | MultiPageElement_cls => MultiPageElement_find self context
  end.

(** [find_delayed] is defined by [PageElement] only; calling a
    [wait_condition] that is [None] is a [TypeError], which the handler
    does not catch. *)
Definition find_delayed (self : PageElement) (context : Root) : M Value :=
  try_except
    (match wait_condition self with
     | Some cond => WebDriverWait_until context (wait_time self) cond (locator self)
     | None => raise (TypeError "'NoneType' object is not callable")
     end)
    TimeoutException
    (ret VNone).

(** [__get__(self, instance, owner, context=None)].  Reading through the
    class passes [instance = None]; [owner] is only handed on to the
    closure and left out. *)
Definition PageElement__get__ (self : PageElement) (instance : option PageObject)
    (context : option WebElement) : M Value :=
  match instance with
  | None => ret VNone
  | Some inst =>
      if negb (truthy context) && has_context self
      then ret (VLambda self inst)
      else
        let context :=
          match context with
          | Some ctx => RootElement ctx
          | None => RootDriver (w inst)
          end in
        if truthy (wait_condition self)
        then find_delayed self context
        else find self context
  end.

(** Calling the value of a read with one argument. *)
Definition call (f : Value) (ctx : option WebElement) : M Value :=
  match f with
  | VLambda self instance => PageElement__get__ self (Some instance) ctx
  | _ => raise (TypeError "object is not callable")
  end.

(** [elem.send_keys(value)] on whatever the read produced. *)
Definition Value_send_keys (elem : Value) (value : string) : M unit :=
  match elem with
  | VElement e => send_keys e value
  | _ => raise (AttributeError "object has no attribute 'send_keys'")
  end.

Definition PageElement__set__ (self : PageElement) (instance : PageObject)
    (value : string) : M unit :=
  if has_context self
  then raise (ValueError
         "Sorry, the set descriptor doesn't support elements with context.")
  else
    elem <- PageElement__get__ self (Some instance) None ;;
    if negb (truthy elem)
    then raise (ValueError "Can't set value, element not found")
    else Value_send_keys elem value.

Fixpoint for_each {A : Type} (l : list A) (body : A -> M unit) : M unit :=
  match l with
  | [] => ret tt
  | x :: rest => body x ;;; for_each rest body
  end.

(** [[elem.send_keys(value) for elem in elems]] *)
Definition Value_send_keys_each (elems : Value) (value : string) : M unit :=
  match elems with
  | VList l => for_each l (fun elem => send_keys elem value)
  | _ => raise (TypeError "object is not iterable")
  end.

Definition MultiPageElement__set__ (self : PageElement) (instance : PageObject)
    (value : string) : M unit :=
  if has_context self
  then raise (ValueError
         "Sorry, the set descriptor doesn't support elements with context.")
  else
    elems <- PageElement__get__ self (Some instance) None ;;
    if negb (truthy elems)
    then raise (ValueError "Can't set value, no elements found")
    else Value_send_keys_each elems value.

(** An assignment [instance.attr = value], by the class of the descriptor. *)
Definition setattr (self : PageElement) (instance : PageObject) (value : string)
  : M unit :=
  match cls self with
  | PageElement_cls => PageElement__set__ self instance value
  | MultiPageElement_cls => MultiPageElement__set__ self instance value
  end.

(** *** IframeElement as a context manager *)

Definition IframeElement__enter__ (self : IframeElement) : M Value :=
  switch_to_frame (driver self) (iframe self) ;;; ret VNone.

(** [__exit__(self, type_, value, traceback)]: the three arguments describe
    the exception of the block, if any. *)
Definition IframeElement__exit__ (self : IframeElement) (exc : option Exn)
  : M Value :=
  switch_to_default_content (driver self) ;;; ret VNone.

(** The statement [with cm: body].  [__exit__] runs once [__enter__] has
    returned; a true result of [__exit__] swallows the exception of the
    block. *)
Definition with_ (cm : IframeElement) (body : M unit) : M unit :=
  fun t =>
    match IframeElement__enter__ cm t with
    | (Raised e, t1) => (Raised e, t1)
    | (Returned _, t1) =>
        match body t1 with
        | (Returned _, t2) =>
            (IframeElement__exit__ cm None ;;; ret tt) t2
        | (Raised e, t2) =>
            (suppress <- IframeElement__exit__ cm (Some e) ;;
             if truthy suppress then ret tt else raise e) t2
        end
    end.

End WithBrowser.

(** ** What a resolution asks the driver *)

(** The keywords of the registry, in the order of the source. *)
Definition recognized_keywords : list string :=
  [ "css"; "id_"; "name"; "xpath"; "link_text"; "partial_link_text";
    "tag_name"; "class_name" ].

(** A read that returns, returns a sequence of elements. *)
Definition returns_sequence (o : Outcome Value) : Prop :=
  forall v, o = Returned v -> exists l, v = VList l.

(** The [send_keys] calls of a write of [value] to the elements [l]. *)
Definition keystrokes (value : string) (l : list WebElement) : Trace :=
  map (fun elem => ESendKeys elem value) l.

(** The one call a read against [root] makes: the bounded wait when a
    wait condition is configured, else the query of the class. *)
Definition query_event (self : PageElement) (root : Root) : Event :=
  match wait_condition self with
  | Some cond => EWaitUntil root (wait_time self) cond (locator self)
  | None =>
      match cls self with
      | PageElement_cls =>
          EFindElement root (fst (locator self)) (snd (locator self))
      | MultiPageElement_cls =>
          EFindElements root (fst (locator self)) (snd (locator self))
      end
  end.

(** Root selection of [__get__]. *)
Definition root_of (instance : PageObject) (context : option WebElement) : Root :=
  match context with
  | Some ctx => RootElement ctx
  | None => RootDriver (w instance)
  end.

(** ** A sample session *)

Module Sample.

Definition firefox : WebDriver := {| session := 1; attr_root_uri := None |}.

Definition node (n : nat) : WebElement := {| element_id := n; parent := firefox |}.

(** A page on which [#foo] is the element 2, [tr] matches the elements 3
    and 4, nothing else is found and every wait for something else than
    [#foo] times out. *)
Definition page : Browser :=
  {| on_find_element := fun _ _ by_ sel =>
       match by_ with
       | ID => if String.eqb sel "foo" then Returned (node 2)
               else Raised NoSuchElementException
       | _ => Raised NoSuchElementException
       end;
     on_find_elements := fun _ _ by_ sel =>
       match by_ with
       | TAG_NAME => if String.eqb sel "tr" then Returned [node 3; node 4]
                     else Returned []
       | _ => Returned []
       end;
     on_until := fun _ _ _ _ loc =>
       match fst loc with
       | ID => if String.eqb (snd loc) "foo" then Returned (VElement (node 2))
               else Raised TimeoutException
       | _ => Raised TimeoutException
       end;
     on_send_keys := fun _ _ _ => Returned tt;
     on_get := fun _ _ _ => Returned tt;
     on_switch_to_frame := fun _ _ _ => Returned tt;
     on_switch_to_default_content := fun _ _ => Returned tt |}.

Definition presence_of_element_located : ExpectedCondition :=
  EC "presence_of_element_located".

Definition presence_of_all_elements_located : ExpectedCondition :=
  EC "presence_of_all_elements_located".

Definition my_page : PageObject := PageObject__init__ firefox None.

(** [PageElement(id_='foo')] *)
Definition foo : PageElement :=
  {| cls := PageElement_cls; locator := (ID, "foo"); has_context := false;
     wait_condition := None; wait_time := 5 |}.

(** [PageElement(id_='bar')] *)
Definition bar : PageElement :=
  {| cls := PageElement_cls; locator := (ID, "bar"); has_context := false;
     wait_condition := None; wait_time := 5 |}.

(** [PageElement(id_='foo', context=True)] *)
Definition foo_in_context : PageElement :=
  {| cls := PageElement_cls; locator := (ID, "foo"); has_context := true;
     wait_condition := None; wait_time := 5 |}.

(** [PageElement(id_='foo', wait_condition=presence_of_element_located)] *)
Definition foo_waited : PageElement :=
  {| cls := PageElement_cls; locator := (ID, "foo"); has_context := false;
     wait_condition := Some presence_of_element_located; wait_time := 5 |}.

(** [MultiPageElement(tag_name='tr')] *)
Definition rows : PageElement :=
  {| cls := MultiPageElement_cls; locator := (TAG_NAME, "tr");
     has_context := false; wait_condition := None; wait_time := 5 |}.

(** [MultiPageElement(tag_name='tr',
      wait_condition=presence_of_all_elements_located)] *)
Definition rows_waited : PageElement :=
  {| cls := MultiPageElement_cls; locator := (TAG_NAME, "tr");
     has_context := false;
     wait_condition := Some presence_of_all_elements_located; wait_time := 5 |}.

(** [MultiPageElement(id_='foo', wait_condition=presence_of_element_located)] *)
Definition foo_multi_waited : PageElement :=
  {| cls := MultiPageElement_cls; locator := (ID, "foo");
     has_context := false;
     wait_condition := Some presence_of_element_located; wait_time := 5 |}.

(** A block that types into [foo] and then fails. *)
Definition failing_block : M unit :=
  send_keys page (node 2) "x" ;;; raise (WebDriverException "stale").

(** A session whose browser is gone: every call fails. *)
Definition disconnected : Browser :=
  {| on_find_element := fun _ _ _ _ => Raised (WebDriverException "disconnected");
     on_find_elements := fun _ _ _ _ => Raised (WebDriverException "disconnected");
     on_until := fun _ _ _ _ _ => Raised (WebDriverException "disconnected");
     on_send_keys := fun _ _ _ => Raised (WebDriverException "disconnected");
     on_get := fun _ _ _ => Raised (WebDriverException "disconnected");
     on_switch_to_frame := fun _ _ _ => Raised (WebDriverException "disconnected");
     on_switch_to_default_content := fun _ _ =>
       Raised (WebDriverException "disconnected") |}.

(** [page] with the rows 3, 4 and 5, of which row 4 takes no keystrokes. *)
Definition page_locked_row : Browser :=
  {| on_find_element := on_find_element page;
     on_find_elements := fun _ _ _ _ => Returned [node 3; node 4; node 5];
     on_until := on_until page;
     on_send_keys := fun _ e _ =>
       if Nat.eqb (element_id e) 4
       then Raised (WebDriverException "element not interactable")
       else Returned tt;
     on_get := on_get page;
     on_switch_to_frame := on_switch_to_frame page;
     on_switch_to_default_content := on_switch_to_default_content page |}.

(** [page] while it loads: the first query finds nothing. *)
Definition page_loading : Browser :=
  {| on_find_element := fun t root by_ sel =>
       match t with
       | [] => Raised NoSuchElementException
       | _ :: _ => on_find_element page t root by_ sel
       end;
     on_find_elements := on_find_elements page;
     on_until := on_until page;
     on_send_keys := on_send_keys page;
     on_get := on_get page;
     on_switch_to_frame := on_switch_to_frame page;
     on_switch_to_default_content := on_switch_to_default_content page |}.

(** [page] without any frame to switch to. *)
Definition page_no_frame : Browser :=
  {| on_find_element := on_find_element page;
     on_find_elements := on_find_elements page;
     on_until := on_until page;
     on_send_keys := on_send_keys page;
     on_get := on_get page;
     on_switch_to_frame := fun _ _ _ =>
       Raised (WebDriverException "no such frame");
     on_switch_to_default_content := on_switch_to_default_content page |}.

(** [page] whose window closes once a frame is entered. *)
Definition page_closing : Browser :=
  {| on_find_element := on_find_element page;
     on_find_elements := on_find_elements page;
     on_until := on_until page;
     on_send_keys := on_send_keys page;
     on_get := on_get page;
     on_switch_to_frame := on_switch_to_frame page;
     on_switch_to_default_content := fun _ _ =>
       Raised (WebDriverException "no such window") |}.

End Sample.

(** * Properties *)

(** ** Generic facts about computations *)

Lemma bind_returned {A B : Type} (m : M A) (k : A -> M B) t a t' :
  m t = (Returned a, t') -> bind m k t = k a t'.
Proof. unfold bind; intros ->; reflexivity. Qed.

Lemma bind_raised {A B : Type} (m : M A) (k : A -> M B) t e t' :
  m t = (Raised e, t') -> bind m k t = (Raised e, t').
Proof. unfold bind; intros ->; reflexivity. Qed.

Lemma try_except_returned {A : Type} (m : M A) exc h t a t' :
  m t = (Returned a, t') -> try_except m exc h t = (Returned a, t').
Proof. unfold try_except; intros ->; reflexivity. Qed.

Lemma try_except_caught {A : Type} (m : M A) exc h t e t' :
  m t = (Raised e, t') -> Exn_eqb e exc = true -> try_except m exc h t = h t'.
Proof. unfold try_except; intros -> ->; reflexivity. Qed.

Lemma try_except_passed {A : Type} (m : M A) exc h t e t' :
  m t = (Raised e, t') -> Exn_eqb e exc = false ->
  try_except m exc h t = (Raised e, t').
Proof. unfold try_except; intros -> ->; reflexivity. Qed.

(** ** The locator registry *)

Lemma _LOCATOR_MAP_keys :
  map fst _LOCATOR_MAP = recognized_keywords.
Proof. reflexivity. Qed.

Lemma dict_get_in_keys {V : Type} (d : list (string * V)) (k : string) :
  dict_get d k <> None <-> In k (map fst d).
Proof.
  induction d as [| [k' v] d IH]; simpl.
  - split; [intros H; now elim H | intros []].
  - destruct (String.eqb_spec k k') as [-> | Hne].
    + split; [intros _; now left | intros _; discriminate].
    + rewrite IH. split; [now right | intros [Heq | Hin]; [congruence | exact Hin]].
Qed.

Lemma PageElement__init___one (cls_ : Class) (context : bool)
    (wc : option ExpectedCondition) (wt : Z) (k v : string) :
  PageElement__init__ cls_ context wc wt [(k, v)] =
  match dict_get _LOCATOR_MAP k with
  | Some by_ => Returned (mkPageElement cls_ (by_, v) context wc wt)
  | None => Raised (KeyError k)
  end.
Proof.
  unfold PageElement__init__, getitem.
  destruct (dict_get _LOCATOR_MAP k); reflexivity.
Qed.

(** C1.  Construction of an element binding: no locator keyword and more
    than one locator keyword are each a [ValueError]; exactly one keyword is
    looked up in [_LOCATOR_MAP], which knows the eight keywords [css],
    [id_], [name], [xpath], [link_text], [partial_link_text], [tag_name] and
    [class_name] and gives the stored pair (strategy, selector); any other
    keyword is a [KeyError] raised by the constructor, so that every binding
    that exists holds a strategy of the registry and resolution never looks
    a keyword up. *)
Theorem PageElement__init___locator :
  forall (cls_ : Class) (context : bool) (wc : option ExpectedCondition)
         (wt : Z),
    PageElement__init__ cls_ context wc wt [] =
      Raised (ValueError "Please specify a locator")
    /\ (forall kv1 kv2 rest,
          PageElement__init__ cls_ context wc wt (kv1 :: kv2 :: rest) =
            Raised (ValueError "Please specify only one locator"))
    /\ (forall v,
          map (fun k => PageElement__init__ cls_ context wc wt [(k, v)])
              recognized_keywords =
          map (fun by_ => Returned (mkPageElement cls_ (by_, v) context wc wt))
              [ CSS_SELECTOR; ID; NAME; XPATH; LINK_TEXT; PARTIAL_LINK_TEXT;
                TAG_NAME; CLASS_NAME ])
    /\ (forall k v,
          ~ In k recognized_keywords ->
          PageElement__init__ cls_ context wc wt [(k, v)] = Raised (KeyError k))
    /\ (forall kwargs self,
          PageElement__init__ cls_ context wc wt kwargs = Returned self ->
          exists k v,
            kwargs = [(k, v)] /\ In k recognized_keywords /\
            dict_get _LOCATOR_MAP k = Some (fst (locator self)) /\
            snd (locator self) = v).
Proof.
  intros cls_ context wc wt.
  split; [reflexivity |].
  split; [intros [k1 v1] [k2 v2] rest; reflexivity |].
  split; [intros v; reflexivity |].
  split.
  - intros k v Hk. rewrite PageElement__init___one.
    destruct (dict_get _LOCATOR_MAP k) eqn:E; [| reflexivity].
    exfalso. apply Hk. rewrite <- _LOCATOR_MAP_keys.
    apply dict_get_in_keys. congruence.
  - intros kwargs self H.
    destruct kwargs as [| [k v] [| kv2 rest]].
    + discriminate H.
    + rewrite PageElement__init___one in H.
      destruct (dict_get _LOCATOR_MAP k) as [by_ |] eqn:E; [| discriminate H].
      injection H as <-. exists k, v.
      split; [reflexivity |]. split; [| split; [exact E | reflexivity]].
      rewrite <- _LOCATOR_MAP_keys. apply dict_get_in_keys. congruence.
    + discriminate H.
Qed.

(** A keyword that the registry does not know, [tag], as in the docstring
    of [MultiPageElement]. *)
Lemma PageElement__init___locator_witness :
  PageElement_new [("tag", "tr")] = Raised (KeyError "tag")
  /\ PageElement_new [("id_", "foo")] = Returned Sample.foo.
Proof.
  split.
  - apply (PageElement__init___locator PageElement_cls false None 5%Z).
    simpl. intros H.
    repeat (destruct H as [H | H]; [discriminate H |]). exact H.
  - reflexivity.
Defined.

(** The docstring of [MultiPageElement] declares [MultiPageElement(tag='tr')]:
    [tag] is not a keyword of the registry. *)
Example MultiPageElement_docstring_tag :
  MultiPageElement_new [("tag", "tr")] = Raised (KeyError "tag")
  /\ MultiPageElement_new [("tag_name", "tr")] = Returned Sample.rows.
Proof. split; reflexivity. Qed.

(** ** Reading a binding *)

(** A read on an instance that has its root (a context was passed, or none
    is required) is [find_delayed] or [find] at that root. *)
Lemma PageElement__get___on_root (browser : Browser) (self : PageElement)
    (inst : PageObject) (context : option WebElement) (t : Trace) :
  truthy context || negb (has_context self) = true ->
  PageElement__get__ browser self (Some inst) context t =
  if truthy (wait_condition self)
  then find_delayed browser self (root_of inst context) t
  else find browser self (root_of inst context) t.
Proof.
  intros H. unfold PageElement__get__, root_of.
  destruct context as [ctx |]; simpl in *.
  - destruct (truthy (wait_condition self)); reflexivity.
  - rewrite negb_true_iff in H. rewrite H.
    destruct (truthy (wait_condition self)); reflexivity.
Qed.

Lemma PageElement_find_spec (browser : Browser) (self : PageElement)
    (root : Root) (t : Trace) :
  PageElement_find browser self root t =
  (match on_find_element browser t root (fst (locator self)) (snd (locator self)) with
   | Returned e => Returned (VElement e)
   | Raised NoSuchElementException => Returned VNone
   | Raised e => Raised e
   end,
   t ++ [EFindElement root (fst (locator self)) (snd (locator self))]).
Proof.
  unfold PageElement_find, try_except, bind, find_element, ret.
  destruct (on_find_element browser t root _ _) as [e | []]; reflexivity.
Qed.

Lemma MultiPageElement_find_spec (browser : Browser) (self : PageElement)
    (root : Root) (t : Trace) :
  MultiPageElement_find browser self root t =
  (match on_find_elements browser t root (fst (locator self)) (snd (locator self)) with
   | Returned l => Returned (VList l)
   | Raised NoSuchElementException => Returned (VList [])
   | Raised e => Raised e
   end,
   t ++ [EFindElements root (fst (locator self)) (snd (locator self))]).
Proof.
  unfold MultiPageElement_find, try_except, bind, find_elements, ret.
  destruct (on_find_elements browser t root _ _) as [l | []]; reflexivity.
Qed.

Lemma find_delayed_spec (browser : Browser) (self : PageElement)
    (cond : ExpectedCondition) (root : Root) (t : Trace) :
  wait_condition self = Some cond ->
  find_delayed browser self root t =
  (match on_until browser t root (wait_time self) cond (locator self) with
   | Returned v => Returned v
   | Raised TimeoutException => Returned VNone
   | Raised e => Raised e
   end,
   t ++ [EWaitUntil root (wait_time self) cond (locator self)]).
Proof.
  intros Hw. unfold find_delayed, try_except, WebDriverWait_until, ret.
  rewrite Hw.
  destruct (on_until browser t root _ cond _) as [v | []]; reflexivity.
Qed.

(** Every read that has its root makes exactly one call to the driver. *)
Lemma PageElement__get___trace (browser : Browser) (self : PageElement)
    (inst : PageObject) (context : option WebElement) (t : Trace) :
  truthy context || negb (has_context self) = true ->
  snd (PageElement__get__ browser self (Some inst) context t) =
  t ++ [query_event self (root_of inst context)].
Proof.
  intros H. rewrite PageElement__get___on_root by exact H.
  unfold query_event.
  destruct (wait_condition self) as [cond |] eqn:Hw; simpl.
  - rewrite (find_delayed_spec _ _ cond) by exact Hw. reflexivity.
  - unfold find. destruct (cls self).
    + rewrite PageElement_find_spec. reflexivity.
    + rewrite MultiPageElement_find_spec. reflexivity.
Qed.

(** C10.  Reading a binding through the class, that is with no instance,
    returns [None] whatever the binding and the context are, and makes no
    call to the driver: the trace is unchanged. *)
Theorem PageElement__get___on_class :
  forall (browser : Browser) (self : PageElement)
         (context : option WebElement) (t : Trace),
    PageElement__get__ browser self None context t = (Returned VNone, t).
Proof. intros browser self context t. reflexivity. Qed.

(** C2.  A binding with [context=True] read on an instance without a
    context gives the closure, a true value that is neither an element nor
    [None], without any call to the driver; calling the closure with a
    context element is a read with that element as root: it makes the one
    query of the binding on that element, the bounded wait when a wait
    condition is configured and [find] of the class otherwise. *)
Theorem PageElement__get___context_pending :
  forall (browser : Browser) (self : PageElement) (inst : PageObject)
         (t : Trace),
    has_context self = true ->
    PageElement__get__ browser self (Some inst) None t =
      (Returned (VLambda self inst), t)
    /\ truthy (VLambda self inst) = true
    /\ forall (ctx : WebElement) (t' : Trace),
         call browser (VLambda self inst) (Some ctx) t' =
           (if truthy (wait_condition self)
            then find_delayed browser self (RootElement ctx) t'
            else find browser self (RootElement ctx) t')
         /\ snd (call browser (VLambda self inst) (Some ctx) t') =
              t' ++ [query_event self (RootElement ctx)]
         /\ (forall cond,
               wait_condition self = Some cond ->
               call browser (VLambda self inst) (Some ctx) t' =
                 (match on_until browser t' (RootElement ctx) (wait_time self)
                          cond (locator self) with
                  | Returned v => Returned v
                  | Raised TimeoutException => Returned VNone
                  | Raised e => Raised e
                  end,
                  t' ++ [EWaitUntil (RootElement ctx) (wait_time self) cond
                           (locator self)])).
Proof.
  intros browser self inst t Hctx.
  split; [| split; [reflexivity |]].
  - unfold PageElement__get__. rewrite Hctx. reflexivity.
  - intros ctx t'. unfold call.
    split; [apply (PageElement__get___on_root browser self inst (Some ctx)); reflexivity |].
    split; [apply (PageElement__get___trace browser self inst (Some ctx)); reflexivity |].
    intros cond Hw.
    rewrite PageElement__get___on_root by reflexivity.
    rewrite Hw. simpl. apply find_delayed_spec. exact Hw.
Qed.

Lemma PageElement__get___context_pending_witness :
  PageElement__get__ Sample.page Sample.foo_in_context (Some Sample.my_page)
    None [] =
    (Returned (VLambda Sample.foo_in_context Sample.my_page), [])
  /\ call Sample.page (VLambda Sample.foo_in_context Sample.my_page)
       (Some (Sample.node 7)) [] =
     (Returned (VElement (Sample.node 2)),
      [EFindElement (RootElement (Sample.node 7)) ID "foo"]).
Proof.
  destruct (PageElement__get___context_pending Sample.page
              Sample.foo_in_context Sample.my_page [] eq_refl)
    as [Hread [_ Hcall]].
  split; [exact Hread |].
  destruct (Hcall (Sample.node 7) []) as [Heq _].
  rewrite Heq. reflexivity.
Defined.

(** C3.  A single-arity binding without context and without wait
    condition, read on an instance, makes one [find_element] call on the
    driver of the instance; the read returns [None] when that call raises
    [NoSuchElementException] and the element the driver returned when it
    returns one. *)
Theorem PageElement__get___find :
  forall (browser : Browser) (self : PageElement) (inst : PageObject)
         (t : Trace),
    cls self = PageElement_cls ->
    has_context self = false ->
    wait_condition self = None ->
    snd (PageElement__get__ browser self (Some inst) None t) =
      t ++ [EFindElement (RootDriver (w inst)) (fst (locator self))
              (snd (locator self))]
    /\ (on_find_element browser t (RootDriver (w inst)) (fst (locator self))
          (snd (locator self)) = Raised NoSuchElementException ->
        fst (PageElement__get__ browser self (Some inst) None t) =
          Returned VNone)
    /\ (forall e,
          on_find_element browser t (RootDriver (w inst)) (fst (locator self))
            (snd (locator self)) = Returned e ->
          fst (PageElement__get__ browser self (Some inst) None t) =
            Returned (VElement e)).
Proof.
  intros browser self inst t Hcls Hctx Hwait.
  rewrite PageElement__get___on_root by (rewrite Hctx; reflexivity).
  rewrite Hwait. simpl. unfold find. rewrite Hcls.
  rewrite PageElement_find_spec. simpl.
  split; [reflexivity |].
  split; [intros -> | intros e ->]; reflexivity.
Qed.

Lemma PageElement__get___find_witness :
  fst (PageElement__get__ Sample.page Sample.bar (Some Sample.my_page) None [])
    = Returned VNone
  /\ fst (PageElement__get__ Sample.page Sample.foo (Some Sample.my_page) None [])
    = Returned (VElement (Sample.node 2)).
Proof.
  split.
  - apply (PageElement__get___find Sample.page Sample.bar Sample.my_page []
             eq_refl eq_refl eq_refl).
    reflexivity.
  - apply (PageElement__get___find Sample.page Sample.foo Sample.my_page []
             eq_refl eq_refl eq_refl).
    reflexivity.
Defined.

(** C6.  A single-arity binding with a wait condition, read with its root,
    makes one call to the bounded wait of the driver, with the root, the
    [wait_time] of the binding, and the condition applied to the stored
    locator; the read returns the value the wait returns, and [None] when
    the wait raises [TimeoutException]. *)
Theorem PageElement__get___find_delayed :
  forall (browser : Browser) (self : PageElement) (inst : PageObject)
         (context : option WebElement) (cond : ExpectedCondition) (t : Trace),
    cls self = PageElement_cls ->
    wait_condition self = Some cond ->
    truthy context || negb (has_context self) = true ->
    snd (PageElement__get__ browser self (Some inst) context t) =
      t ++ [EWaitUntil (root_of inst context) (wait_time self) cond
              (locator self)]
    /\ (forall v,
          on_until browser t (root_of inst context) (wait_time self) cond
            (locator self) = Returned v ->
          fst (PageElement__get__ browser self (Some inst) context t) =
            Returned v)
    /\ (on_until browser t (root_of inst context) (wait_time self) cond
          (locator self) = Raised TimeoutException ->
        fst (PageElement__get__ browser self (Some inst) context t) =
          Returned VNone).
Proof.
  intros browser self inst context cond t _ Hwait Hroot.
  rewrite PageElement__get___on_root by exact Hroot.
  rewrite Hwait. simpl.
  rewrite (find_delayed_spec _ _ cond) by exact Hwait. simpl.
  split; [reflexivity |].
  split; [intros v -> | intros ->]; reflexivity.
Qed.

Lemma PageElement__get___find_delayed_witness :
  PageElement__get__ Sample.page Sample.foo_waited (Some Sample.my_page) None []
  = (Returned (VElement (Sample.node 2)),
     [EWaitUntil (RootDriver Sample.firefox) 5 Sample.presence_of_element_located
        (ID, "foo")]).
Proof.
  destruct (PageElement__get___find_delayed Sample.page Sample.foo_waited
              Sample.my_page None Sample.presence_of_element_located []
              eq_refl eq_refl eq_refl) as [Htrace [Hok _]].
  specialize (Hok (VElement (Sample.node 2)) eq_refl).
  rewrite (surjective_pairing (PageElement__get__ _ _ _ _ _)).
  rewrite Hok, Htrace. reflexivity.
Defined.

(** ** Multi-arity reads *)

(** C4, as worded, fails: with a wait condition a multi-arity binding
    returns what the wait of the driver returns, here the one element that
    [presence_of_element_located] gives, which is not a sequence. *)
Lemma MultiPageElement_wait_not_sequence :
  cls Sample.foo_multi_waited = MultiPageElement_cls
  /\ fst (PageElement__get__ Sample.page Sample.foo_multi_waited
            (Some Sample.my_page) None []) = Returned (VElement (Sample.node 2))
  /\ (returns_sequence
        (fst (PageElement__get__ Sample.page Sample.foo_multi_waited
                (Some Sample.my_page) None [])) -> False).
Proof.
  split; [reflexivity |]. split; [reflexivity |].
  intros H. destruct (H (VElement (Sample.node 2)) eq_refl) as [l Hl].
  discriminate Hl.
Qed.

(** The inherited [find_delayed] at a timeout, on a multi-arity binding. *)
Lemma MultiPageElement_wait_timeout :
  PageElement__get__ Sample.page Sample.rows_waited (Some Sample.my_page) None []
  = (Returned VNone,
     [EWaitUntil (RootDriver Sample.firefox) 5
        Sample.presence_of_all_elements_located (TAG_NAME, "tr")]).
Proof. reflexivity. Qed.

(** C4, amended.  A multi-arity binding read with its root: without a wait
    condition it makes one [find_elements] call and returns the sequence the
    driver returned, in the order of the driver, the empty sequence when the
    driver raises [NoSuchElementException], and never [None]; with a wait
    condition, when the wait of the driver succeeds the read returns the
    value of the wait unchanged. *)
Theorem MultiPageElement_read_sequence :
  forall (browser : Browser) (self : PageElement) (inst : PageObject)
         (context : option WebElement) (t : Trace),
    cls self = MultiPageElement_cls ->
    truthy context || negb (has_context self) = true ->
    (wait_condition self = None ->
       snd (PageElement__get__ browser self (Some inst) context t) =
         t ++ [EFindElements (root_of inst context) (fst (locator self))
                 (snd (locator self))]
       /\ (forall l,
             on_find_elements browser t (root_of inst context)
               (fst (locator self)) (snd (locator self)) = Returned l ->
             fst (PageElement__get__ browser self (Some inst) context t) =
               Returned (VList l))
       /\ (on_find_elements browser t (root_of inst context)
             (fst (locator self)) (snd (locator self)) =
             Raised NoSuchElementException ->
           fst (PageElement__get__ browser self (Some inst) context t) =
             Returned (VList []))
       /\ fst (PageElement__get__ browser self (Some inst) context t) <>
            Returned VNone
       /\ returns_sequence
            (fst (PageElement__get__ browser self (Some inst) context t)))
    /\ (forall cond v,
          wait_condition self = Some cond ->
          on_until browser t (root_of inst context) (wait_time self) cond
            (locator self) = Returned v ->
          PageElement__get__ browser self (Some inst) context t =
            (Returned v,
             t ++ [EWaitUntil (root_of inst context) (wait_time self) cond
                     (locator self)])).
Proof.
  intros browser self inst context t Hcls Hroot.
  rewrite PageElement__get___on_root by exact Hroot.
  split.
  - intros Hwait. rewrite Hwait. simpl. unfold find. rewrite Hcls.
    rewrite MultiPageElement_find_spec. simpl.
    split; [reflexivity |].
    split; [intros l ->; reflexivity |].
    split; [intros ->; reflexivity |].
    destruct (on_find_elements browser t (root_of inst context) _ _)
      as [l | e].
    + split; [discriminate |].
      intros v Hv. injection Hv as <-. now exists l.
    + destruct e; (split; [discriminate |]); intros v Hv;
        try discriminate Hv.
      injection Hv as <-. now exists [].
  - intros cond v Hwait Hv. rewrite Hwait. simpl.
    rewrite (find_delayed_spec _ _ cond) by exact Hwait.
    rewrite Hv. reflexivity.
Qed.

Lemma MultiPageElement_read_sequence_witness :
  fst (PageElement__get__ Sample.page Sample.rows (Some Sample.my_page) None [])
  = Returned (VList [Sample.node 3; Sample.node 4]).
Proof.
  destruct (MultiPageElement_read_sequence Sample.page Sample.rows Sample.my_page
              None [] eq_refl eq_refl) as [Hfind _].
  destruct (Hfind eq_refl) as [_ [Hl _]].
  apply Hl. reflexivity.
Defined.

(** ** Writing to a binding *)

Lemma for_each_send_keys_cons (browser : Browser) (value : string)
    (x : WebElement) (rest : list WebElement) (t : Trace) :
  for_each (x :: rest) (fun elem => send_keys browser elem value) t =
  match on_send_keys browser t x value with
  | Returned _ =>
      for_each rest (fun elem => send_keys browser elem value)
        (t ++ [ESendKeys x value])
  | Raised e => (Raised e, t ++ [ESendKeys x value])
  end.
Proof.
  simpl. unfold bind, send_keys.
  destruct (on_send_keys browser t x value); reflexivity.
Qed.

(** The comprehension sends to the elements in order and stops at the first
    [send_keys] that raises. *)
Lemma for_each_send_keys_prefix (browser : Browser) (value : string)
    (l : list WebElement) :
  forall t,
  exists k,
    k <= length l
    /\ (l <> [] -> 1 <= k)
    /\ snd (for_each l (fun elem => send_keys browser elem value) t) =
         t ++ keystrokes value (firstn k l)
    /\ (fst (for_each l (fun elem => send_keys browser elem value) t) =
          Returned tt -> k = length l).
Proof.
  induction l as [| x rest IH]; intros t.
  - exists 0. simpl. rewrite app_nil_r. repeat split; auto. congruence.
  - rewrite for_each_send_keys_cons.
    destruct (on_send_keys browser t x value) as [[] | e].
    + destruct (IH (t ++ [ESendKeys x value])) as (k & Hle & _ & Htr & Hall).
      exists (S k). simpl length. simpl firstn. unfold keystrokes in *.
      simpl map. rewrite Htr, <- app_assoc. simpl.
      split; [lia |]. split; [intros _; lia |]. split; [reflexivity |].
      intros Hret. now rewrite (Hall Hret).
    + exists 1. simpl.
      split; [lia |]. split; [intros _; lia |]. split; [reflexivity |].
      discriminate.
Qed.

Lemma for_each_send_keys_all (browser : Browser) (value : string)
    (l : list WebElement) :
  forall t,
    (forall i elem,
       nth_error l i = Some elem ->
       on_send_keys browser (t ++ keystrokes value (firstn i l)) elem value =
         Returned tt) ->
    for_each l (fun elem => send_keys browser elem value) t =
      (Returned tt, t ++ keystrokes value l).
Proof.
  induction l as [| x rest IH]; intros t H.
  - simpl. unfold ret. now rewrite app_nil_r.
  - rewrite for_each_send_keys_cons.
    pose proof (H 0 x eq_refl) as H0. simpl in H0. rewrite app_nil_r in H0.
    rewrite H0. rewrite IH.
    + unfold keystrokes. simpl. now rewrite <- app_assoc.
    + intros i elem Hi. rewrite <- app_assoc. apply (H (S i) elem Hi).
Qed.

Lemma setattr_after_read (browser : Browser) (self : PageElement)
    (inst : PageObject) (value : string) (t : Trace) (r : Value) (t1 : Trace) :
  has_context self = false ->
  PageElement__get__ browser self (Some inst) None t = (Returned r, t1) ->
  setattr browser self inst value t =
  match cls self with
  | PageElement_cls =>
      if truthy r then Value_send_keys browser r value t1
      else (Raised (ValueError "Can't set value, element not found"), t1)
  | MultiPageElement_cls =>
      if truthy r then Value_send_keys_each browser r value t1
      else (Raised (ValueError "Can't set value, no elements found"), t1)
  end.
Proof.
  intros Hctx Hread.
  unfold setattr, PageElement__set__, MultiPageElement__set__.
  rewrite Hctx.
  destruct (cls self); rewrite (bind_returned _ _ _ _ _ Hread);
    destruct (truthy r); reflexivity.
Qed.

(** C5.  A write to a binding with [context=True] raises the [ValueError]
    of the unsupported operation and makes no call to the driver.
    Otherwise the binding is read first, on the driver of the instance: the
    trace of the write starts with the one query of the read.  When the
    read gives [None] (single arity) or the empty sequence (multi arity) a
    [ValueError] for the missing target is raised and nothing is sent.  When
    it gives an element, [value] is sent to that element; when it gives a
    sequence that is not empty, [value] is sent to its elements in order,
    to all of them when the write returns, that is unless a [send_keys]
    raises. *)
Theorem setattr_spec :
  forall (browser : Browser) (self : PageElement) (inst : PageObject)
         (value : string) (t : Trace),
    (has_context self = true ->
       setattr browser self inst value t =
         (Raised (ValueError
            "Sorry, the set descriptor doesn't support elements with context."),
          t))
    /\ (has_context self = false ->
        forall r t1,
          PageElement__get__ browser self (Some inst) None t = (r, t1) ->
          t1 = t ++ [query_event self (RootDriver (w inst))]
          /\ (cls self = PageElement_cls ->
                (r = Returned VNone ->
                   setattr browser self inst value t =
                     (Raised (ValueError "Can't set value, element not found"),
                      t1))
                /\ (forall e,
                      r = Returned (VElement e) ->
                      setattr browser self inst value t =
                        (on_send_keys browser t1 e value,
                         t1 ++ [ESendKeys e value])))
          /\ (cls self = MultiPageElement_cls ->
                (r = Returned (VList []) ->
                   setattr browser self inst value t =
                     (Raised (ValueError "Can't set value, no elements found"),
                      t1))
                /\ (forall l,
                      l <> [] ->
                      r = Returned (VList l) ->
                      (exists k,
                         1 <= k <= length l
                         /\ snd (setattr browser self inst value t) =
                              t1 ++ keystrokes value (firstn k l)
                         /\ (fst (setattr browser self inst value t) =
                               Returned tt -> k = length l))
                      /\ ((forall i elem,
                             nth_error l i = Some elem ->
                             on_send_keys browser
                               (t1 ++ keystrokes value (firstn i l)) elem value
                               = Returned tt) ->
                          setattr browser self inst value t =
                            (Returned tt, t1 ++ keystrokes value l))))).
Proof.
  intros browser self inst value t. split.
  - intros Hctx.
    unfold setattr, PageElement__set__, MultiPageElement__set__.
    rewrite Hctx. destruct (cls self); reflexivity.
  - intros Hctx r t1 Hread. split; [| split].
    + pose proof (PageElement__get___trace browser self inst None t) as Htr.
      rewrite Hread in Htr. apply Htr. rewrite Hctx. reflexivity.
    + intros Hcls. split.
      * intros ->. rewrite (setattr_after_read _ _ _ _ _ _ _ Hctx Hread).
        rewrite Hcls. reflexivity.
      * intros e ->. rewrite (setattr_after_read _ _ _ _ _ _ _ Hctx Hread).
        rewrite Hcls. reflexivity.
    + intros Hcls. split.
      * intros ->. rewrite (setattr_after_read _ _ _ _ _ _ _ Hctx Hread).
        rewrite Hcls. reflexivity.
      * intros l Hl ->. rewrite (setattr_after_read _ _ _ _ _ _ _ Hctx Hread).
        rewrite Hcls.
        assert (Ht : truthy (VList l) = true)
          by (destruct l; [now elim Hl | reflexivity]).
        rewrite Ht. unfold Value_send_keys_each. split.
        -- destruct (for_each_send_keys_prefix browser value l t1)
             as (k & Hle & Hpos & Htr & Hall).
           exists k. split; [split; [exact (Hpos Hl) | exact Hle] |].
           split; assumption.
        -- apply for_each_send_keys_all.
Qed.

Lemma setattr_spec_witness :
  setattr Sample.page Sample.foo_in_context Sample.my_page "x" [] =
    (Raised (ValueError
       "Sorry, the set descriptor doesn't support elements with context."),
     [])
  /\ setattr Sample.page Sample.bar Sample.my_page "x" [] =
       (Raised (ValueError "Can't set value, element not found"),
        [EFindElement (RootDriver Sample.firefox) ID "bar"])
  /\ setattr Sample.page Sample.rows Sample.my_page "x" [] =
       (Returned tt,
        [EFindElements (RootDriver Sample.firefox) TAG_NAME "tr";
         ESendKeys (Sample.node 3) "x"; ESendKeys (Sample.node 4) "x"]).
Proof.
  split; [| split].
  - apply (setattr_spec Sample.page Sample.foo_in_context Sample.my_page "x" []).
    reflexivity.
  - destruct (setattr_spec Sample.page Sample.bar Sample.my_page "x" [])
      as [_ H].
    destruct (H eq_refl (Returned VNone)
                [EFindElement (RootDriver Sample.firefox) ID "bar"] eq_refl)
      as [_ [Hsingle _]].
    apply (Hsingle eq_refl). reflexivity.
  - destruct (setattr_spec Sample.page Sample.rows Sample.my_page "x" [])
      as [_ H].
    destruct (H eq_refl (Returned (VList [Sample.node 3; Sample.node 4]))
                [EFindElements (RootDriver Sample.firefox) TAG_NAME "tr"]
                eq_refl)
      as [_ [_ Hmulti]].
    destruct (Hmulti eq_refl) as [_ Hl].
    destruct (Hl [Sample.node 3; Sample.node 4]) as [_ Hall];
      [discriminate | reflexivity |].
    apply Hall. intros i elem _. reflexivity.
Defined.

(** ** The iframe scope *)

Lemma IframeElement__enter___spec (browser : Browser) (cm : IframeElement)
    (t : Trace) :
  IframeElement__enter__ browser cm t =
  (match on_switch_to_frame browser t (driver cm) (iframe cm) with
   | Returned _ => Returned VNone
   | Raised e => Raised e
   end,
   t ++ [ESwitchToFrame (driver cm) (iframe cm)]).
Proof.
  unfold IframeElement__enter__, bind, switch_to_frame, ret.
  destruct (on_switch_to_frame browser t (driver cm) (iframe cm)); reflexivity.
Qed.

Lemma IframeElement__exit___spec (browser : Browser) (cm : IframeElement)
    (exc : option Exn) (t : Trace) :
  IframeElement__exit__ browser cm exc t =
  (match on_switch_to_default_content browser t (driver cm) with
   | Returned _ => Returned VNone
   | Raised e => Raised e
   end,
   t ++ [ESwitchToDefaultContent (driver cm)]).
Proof.
  unfold IframeElement__exit__, bind, switch_to_default_content, ret.
  destruct (on_switch_to_default_content browser t (driver cm)); reflexivity.
Qed.

(** C7, amended.  [IframeElement(None)] raises a [ValueError]; on an element the
    manager keeps the element and its driver.  [__enter__] makes one
    [switch_to.frame] call and [__exit__] one [switch_to_default_content]
    call, whatever exception it is told of.  For a block run under [with],
    once the frame switch has returned: the trace is the frame switch, then
    what the block did, then one switch back, whether the block returned or
    raised; and when the switch back returns, the statement ends as the
    block ended, with the same exception if it raised. *)
Theorem IframeElement_scope :
  forall (browser : Browser),
    IframeElement__init__ None = Raised (ValueError "Please specify an iframe")
    /\ (forall e,
          IframeElement__init__ (Some e) =
            Returned {| iframe := e; driver := parent e |})
    /\ forall (cm : IframeElement) (body : M unit) (t : Trace),
         snd (IframeElement__enter__ browser cm t) =
           t ++ [ESwitchToFrame (driver cm) (iframe cm)]
         /\ (forall exc t2,
               snd (IframeElement__exit__ browser cm exc t2) =
                 t2 ++ [ESwitchToDefaultContent (driver cm)])
         /\ (on_switch_to_frame browser t (driver cm) (iframe cm) =
               Returned tt ->
             snd (with_ browser cm body t) =
               snd (body (t ++ [ESwitchToFrame (driver cm) (iframe cm)]))
                 ++ [ESwitchToDefaultContent (driver cm)]
             /\ (on_switch_to_default_content browser
                   (snd (body (t ++ [ESwitchToFrame (driver cm) (iframe cm)])))
                   (driver cm) = Returned tt ->
                 fst (with_ browser cm body t) =
                   fst (body (t ++ [ESwitchToFrame (driver cm) (iframe cm)])))).
Proof.
  intros browser. split; [reflexivity |]. split; [reflexivity |].
  intros cm body t.
  split; [rewrite IframeElement__enter___spec; reflexivity |].
  split; [intros exc t2; rewrite IframeElement__exit___spec; reflexivity |].
  intros Henter. unfold with_.
  rewrite IframeElement__enter___spec, Henter.
  destruct (body (t ++ [ESwitchToFrame (driver cm) (iframe cm)]))
    as [[[] | e] t2]; unfold bind; rewrite IframeElement__exit___spec; simpl.
  - destruct (on_switch_to_default_content browser t2 (driver cm));
      (split; [reflexivity | intros H; try discriminate H; reflexivity]).
  - destruct (on_switch_to_default_content browser t2 (driver cm));
      (split; [reflexivity | intros H; try discriminate H; reflexivity]).
Qed.

(** A block that types into an element and then fails, run in the frame
    of element 9. *)
Lemma IframeElement_scope_witness :
  with_ Sample.page {| iframe := Sample.node 9; driver := Sample.firefox |}
    Sample.failing_block [] =
  (Raised (WebDriverException "stale"),
   [ESwitchToFrame Sample.firefox (Sample.node 9);
    ESendKeys (Sample.node 2) "x";
    ESwitchToDefaultContent Sample.firefox]).
Proof.
  destruct (IframeElement_scope Sample.page) as [_ [_ H]].
  destruct (H {| iframe := Sample.node 9; driver := Sample.firefox |}
              Sample.failing_block []) as [_ [_ Hwith]].
  destruct (Hwith eq_refl) as [Htrace Hres].
  rewrite (surjective_pairing (with_ _ _ _ _)).
  rewrite Htrace, (Hres eq_refl). reflexivity.
Defined.

(** C7, as worded, fails: an exception raised inside the block is not
    always passed on as it is.  On a page whose window closes in the frame,
    the block raises ["stale"], the switch back of [__exit__] is made and
    raises ["no such window"], and it is this exception that the statement
    ends with: the exception of the block has been replaced. *)
Lemma IframeElement_exit_replaces_exception :
  on_switch_to_frame Sample.page_closing [] Sample.firefox (Sample.node 9) =
    Returned tt
  /\ fst (Sample.failing_block
            [ESwitchToFrame Sample.firefox (Sample.node 9)]) =
       Raised (WebDriverException "stale")
  /\ with_ Sample.page_closing
        {| iframe := Sample.node 9; driver := Sample.firefox |}
        Sample.failing_block [] =
      (Raised (WebDriverException "no such window"),
       [ESwitchToFrame Sample.firefox (Sample.node 9);
        ESendKeys (Sample.node 2) "x";
        ESwitchToDefaultContent Sample.firefox])
  /\ fst (with_ Sample.page_closing
            {| iframe := Sample.node 9; driver := Sample.firefox |}
            Sample.failing_block []) <>
      fst (Sample.failing_block
             [ESwitchToFrame Sample.firefox (Sample.node 9)]).
Proof.
  split; [reflexivity |]. split; [reflexivity |]. split; [reflexivity |].
  discriminate.
Qed.

(** ** The page model *)

Lemma or_str_default (a : option string) :
  or_str a "" = match a with Some s => s | None => "" end.
Proof. destruct a as [[| c s] |]; reflexivity. Qed.

(** C8.  [get] asks the driver of the instance to load the concatenation
    of the base URI, the empty string when the base URI is [None], and the
    path, as it is; constructed with ["http://x/"] and asked for ["foo"] it
    requests ["http://x/foo"], and constructed without base URI on a driver
    that has no [root_uri], or has it [None], it requests ["foo"]. *)
Theorem PageObject_get_spec :
  forall (browser : Browser) (t : Trace),
    (forall (self : PageObject) (uri : string),
       PageObject_get browser self uri t =
         (on_get browser t (w self)
            (match root_uri self with Some s => s | None => "" end ++ uri),
          t ++ [EGet (w self)
                  (match root_uri self with Some s => s | None => "" end
                     ++ uri)]))
    /\ (forall d,
          snd (PageObject_get browser (PageObject__init__ d (Some "http://x/"))
                 "foo" t) = t ++ [EGet d "http://x/foo"])
    /\ (forall n,
          snd (PageObject_get browser
                 (PageObject__init__ (mkWebDriver n None) None) "foo" t) =
            t ++ [EGet (mkWebDriver n None) "foo"])
    /\ (forall n,
          snd (PageObject_get browser
                 (PageObject__init__ (mkWebDriver n (Some None)) None) "foo" t)
            = t ++ [EGet (mkWebDriver n (Some None)) "foo"]).
Proof.
  intros browser t. split.
  - intros self uri. unfold PageObject_get, webdriver_get.
    rewrite or_str_default. reflexivity.
  - repeat split; intros; reflexivity.
Qed.

(** C9.  With the explicit base URI [""] and a driver whose [root_uri] is
    the string [R], the base URI of the instance is [R], and [get p]
    requests [R ++ p]; an explicit base URI that is not empty is kept
    whatever the driver has. *)
Theorem PageObject__init___empty_root_uri :
  forall (browser : Browser) (n : nat) (R p : string) (t : Trace),
    root_uri (PageObject__init__ (mkWebDriver n (Some (Some R))) (Some "")) =
      Some R
    /\ snd (PageObject_get browser
              (PageObject__init__ (mkWebDriver n (Some (Some R))) (Some ""))
              p t) =
         t ++ [EGet (mkWebDriver n (Some (Some R))) (R ++ p)]
    /\ (forall d c s,
          root_uri (PageObject__init__ d (Some (String c s))) =
            Some (String c s)).
Proof.
  intros browser n R p t.
  split; [reflexivity |]. split; [| reflexivity].
  unfold PageObject_get, webdriver_get. rewrite or_str_default. reflexivity.
Qed.

(** * Further properties of the code *)

(** ** Which exceptions a read converts *)

(** [find] converts [NoSuchElementException] only: any other exception of
    the query of the driver, a timeout included, leaves the read as it
    is, after the one query. *)
Theorem find_passes_other_exceptions :
  forall (browser : Browser) (self : PageElement) (inst : PageObject)
         (context : option WebElement) (t : Trace) (e : Exn),
    wait_condition self = None ->
    truthy context || negb (has_context self) = true ->
    Exn_eqb e NoSuchElementException = false ->
    (cls self = PageElement_cls ->
       on_find_element browser t (root_of inst context) (fst (locator self))
         (snd (locator self)) = Raised e ->
       PageElement__get__ browser self (Some inst) context t =
         (Raised e,
          t ++ [EFindElement (root_of inst context) (fst (locator self))
                  (snd (locator self))]))
    /\ (cls self = MultiPageElement_cls ->
          on_find_elements browser t (root_of inst context) (fst (locator self))
            (snd (locator self)) = Raised e ->
          PageElement__get__ browser self (Some inst) context t =
            (Raised e,
             t ++ [EFindElements (root_of inst context) (fst (locator self))
                     (snd (locator self))])).
Proof.
  intros browser self inst context t e Hwait Hroot He.
  rewrite PageElement__get___on_root by exact Hroot.
  rewrite Hwait. simpl. unfold find.
  split; intros Hcls Hq; rewrite Hcls.
  - rewrite PageElement_find_spec, Hq.
    destruct e; try reflexivity; discriminate He.
  - rewrite MultiPageElement_find_spec, Hq.
    destruct e; try reflexivity; discriminate He.
Qed.

Lemma find_passes_other_exceptions_witness :
  PageElement__get__ Sample.disconnected Sample.foo (Some Sample.my_page) None []
  = (Raised (WebDriverException "disconnected"),
     [EFindElement (RootDriver Sample.firefox) ID "foo"]).
Proof.
  apply (find_passes_other_exceptions Sample.disconnected Sample.foo
           Sample.my_page None [] (WebDriverException "disconnected")
           eq_refl eq_refl eq_refl);
    reflexivity.
Defined.

(** [find_delayed] converts [TimeoutException] only: any other exception of
    the wait, [NoSuchElementException] included, leaves the read as it is,
    for both classes. *)
Theorem find_delayed_passes_other_exceptions :
  forall (browser : Browser) (self : PageElement) (inst : PageObject)
         (context : option WebElement) (cond : ExpectedCondition)
         (t : Trace) (e : Exn),
    wait_condition self = Some cond ->
    truthy context || negb (has_context self) = true ->
    Exn_eqb e TimeoutException = false ->
    on_until browser t (root_of inst context) (wait_time self) cond
      (locator self) = Raised e ->
    PageElement__get__ browser self (Some inst) context t =
      (Raised e,
       t ++ [EWaitUntil (root_of inst context) (wait_time self) cond
               (locator self)]).
Proof.
  intros browser self inst context cond t e Hwait Hroot He Hq.
  rewrite PageElement__get___on_root by exact Hroot.
  rewrite Hwait. simpl.
  rewrite (find_delayed_spec _ _ cond) by exact Hwait. rewrite Hq.
  destruct e; try reflexivity; discriminate He.
Qed.

Lemma find_delayed_passes_other_exceptions_witness :
  PageElement__get__ Sample.disconnected Sample.foo_waited
    (Some Sample.my_page) None []
  = (Raised (WebDriverException "disconnected"),
     [EWaitUntil (RootDriver Sample.firefox) 5
        Sample.presence_of_element_located (ID, "foo")]).
Proof.
  apply (find_delayed_passes_other_exceptions Sample.disconnected
           Sample.foo_waited Sample.my_page None
           Sample.presence_of_element_located []
           (WebDriverException "disconnected") eq_refl eq_refl eq_refl).
  reflexivity.
Defined.

(** A plain single-arity read that returns gives [None] only when the
    driver raised [NoSuchElementException], and otherwise the element the
    driver returned: never a sequence, a closure or a boolean. *)
Theorem plain_read_result :
  forall (browser : Browser) (self : PageElement) (inst : PageObject)
         (t : Trace) (v : Value),
    cls self = PageElement_cls ->
    has_context self = false ->
    wait_condition self = None ->
    fst (PageElement__get__ browser self (Some inst) None t) = Returned v ->
    (v = VNone
     /\ on_find_element browser t (RootDriver (w inst)) (fst (locator self))
          (snd (locator self)) = Raised NoSuchElementException)
    \/ (exists e,
          v = VElement e
          /\ on_find_element browser t (RootDriver (w inst))
               (fst (locator self)) (snd (locator self)) = Returned e).
Proof.
  intros browser self inst t v Hcls Hctx Hwait.
  rewrite PageElement__get___on_root by (rewrite Hctx; reflexivity).
  rewrite Hwait. simpl. unfold find. rewrite Hcls.
  rewrite PageElement_find_spec. simpl.
  destruct (on_find_element browser t (RootDriver (w inst)) _ _) as [e | x].
  - intros H. injection H as <-. right. now exists e.
  - destruct x; intros H; try discriminate H.
    injection H as <-. left. now split.
Qed.

Lemma plain_read_result_witness :
  (VNone = VNone
   /\ on_find_element Sample.page [] (RootDriver (w Sample.my_page))
        (fst (locator Sample.bar)) (snd (locator Sample.bar)) =
        Raised NoSuchElementException)
  \/ (exists e,
        VNone = VElement e
        /\ on_find_element Sample.page [] (RootDriver (w Sample.my_page))
             (fst (locator Sample.bar)) (snd (locator Sample.bar)) =
             Returned e).
Proof.
  apply (plain_read_result Sample.page Sample.bar Sample.my_page [] VNone
           eq_refl eq_refl eq_refl).
  reflexivity.
Defined.

(** ** No caching *)

(** Nothing is kept between two reads: a second read of the same binding
    makes the query again, and is answered by the driver as the page is
    then. *)
Theorem read_twice_queries_twice :
  forall (browser : Browser) (self : PageElement) (inst : PageObject)
         (context : option WebElement) (t : Trace) (v : Value),
    truthy context || negb (has_context self) = true ->
    fst (PageElement__get__ browser self (Some inst) context t) = Returned v ->
    bind (PageElement__get__ browser self (Some inst) context)
         (fun _ => PageElement__get__ browser self (Some inst) context) t =
      PageElement__get__ browser self (Some inst) context
        (t ++ [query_event self (root_of inst context)])
    /\ snd (bind (PageElement__get__ browser self (Some inst) context)
              (fun _ => PageElement__get__ browser self (Some inst) context) t)
       = t ++ [query_event self (root_of inst context);
               query_event self (root_of inst context)].
Proof.
  intros browser self inst context t v Hroot Hv.
  pose proof (PageElement__get___trace browser self inst context t Hroot) as Htr.
  assert (Hbind :
    bind (PageElement__get__ browser self (Some inst) context)
         (fun _ => PageElement__get__ browser self (Some inst) context) t =
    PageElement__get__ browser self (Some inst) context
      (t ++ [query_event self (root_of inst context)])).
  { apply (bind_returned _ _ _ v).
    rewrite (surjective_pairing (PageElement__get__ _ _ _ _ _)).
    now rewrite Hv, Htr. }
  split; [exact Hbind |].
  rewrite Hbind, PageElement__get___trace by exact Hroot.
  now rewrite <- app_assoc.
Qed.

Lemma read_twice_queries_twice_witness :
  fst (PageElement__get__ Sample.page_loading Sample.foo (Some Sample.my_page)
         None []) = Returned VNone
  /\ bind (PageElement__get__ Sample.page_loading Sample.foo
             (Some Sample.my_page) None)
          (fun _ => PageElement__get__ Sample.page_loading Sample.foo
                      (Some Sample.my_page) None) []
     = (Returned (VElement (Sample.node 2)),
        [EFindElement (RootDriver Sample.firefox) ID "foo";
         EFindElement (RootDriver Sample.firefox) ID "foo"]).
Proof.
  split; [reflexivity |].
  destruct (read_twice_queries_twice Sample.page_loading Sample.foo
              Sample.my_page None [] VNone eq_refl eq_refl) as [H _].
  rewrite H. reflexivity.
Defined.

(** ** Writes that fail, and writes that return *)

(** When the read of a write raises, the write raises the same exception
    and nothing is typed: the trace is that of the read. *)
Theorem setattr_read_raises :
  forall (browser : Browser) (self : PageElement) (inst : PageObject)
         (value : string) (t : Trace) (e : Exn) (t1 : Trace),
    has_context self = false ->
    PageElement__get__ browser self (Some inst) None t = (Raised e, t1) ->
    setattr browser self inst value t = (Raised e, t1)
    /\ t1 = t ++ [query_event self (RootDriver (w inst))].
Proof.
  intros browser self inst value t e t1 Hctx Hread. split.
  - unfold setattr, PageElement__set__, MultiPageElement__set__.
    rewrite Hctx.
    destruct (cls self); apply bind_raised; exact Hread.
  - pose proof (PageElement__get___trace browser self inst None t) as Htr.
    rewrite Hread in Htr. apply Htr. rewrite Hctx. reflexivity.
Qed.

Lemma setattr_read_raises_witness :
  setattr Sample.disconnected Sample.rows Sample.my_page "x" [] =
    (Raised (WebDriverException "disconnected"),
     [EFindElements (RootDriver Sample.firefox) TAG_NAME "tr"]).
Proof.
  apply (setattr_read_raises Sample.disconnected Sample.rows Sample.my_page
           "x" [] (WebDriverException "disconnected")
           [EFindElements (RootDriver Sample.firefox) TAG_NAME "tr"]
           eq_refl eq_refl).
Defined.

(** A write to a binding with a wait condition whose wait times out
    raises the [ValueError] of its class for the missing target, after the
    one wait and without typing anything. *)
Theorem setattr_wait_timeout :
  forall (browser : Browser) (self : PageElement) (inst : PageObject)
         (value : string) (cond : ExpectedCondition) (t : Trace),
    has_context self = false ->
    wait_condition self = Some cond ->
    on_until browser t (RootDriver (w inst)) (wait_time self) cond
      (locator self) = Raised TimeoutException ->
    setattr browser self inst value t =
      (Raised (ValueError
         match cls self with
         | PageElement_cls => "Can't set value, element not found"
         | MultiPageElement_cls => "Can't set value, no elements found"
         end),
       t ++ [EWaitUntil (RootDriver (w inst)) (wait_time self) cond
               (locator self)]).
Proof.
  intros browser self inst value cond t Hctx Hwait Hq.
  assert (Hread :
    PageElement__get__ browser self (Some inst) None t =
    (Returned VNone,
     t ++ [EWaitUntil (RootDriver (w inst)) (wait_time self) cond
             (locator self)])).
  { rewrite PageElement__get___on_root by (rewrite Hctx; reflexivity).
    rewrite Hwait. simpl.
    rewrite (find_delayed_spec _ _ cond) by exact Hwait.
    rewrite Hq. reflexivity. }
  rewrite (setattr_after_read _ _ _ _ _ _ _ Hctx Hread).
  destruct (cls self); reflexivity.
Qed.

Lemma setattr_wait_timeout_witness :
  setattr Sample.page Sample.rows_waited Sample.my_page "x" [] =
    (Raised (ValueError "Can't set value, no elements found"),
     [EWaitUntil (RootDriver Sample.firefox) 5
        Sample.presence_of_all_elements_located (TAG_NAME, "tr")]).
Proof.
  apply (setattr_wait_timeout Sample.page Sample.rows_waited Sample.my_page
           "x" Sample.presence_of_all_elements_located [] eq_refl eq_refl
           eq_refl).
Defined.

Lemma for_each_send_keys_stops (browser : Browser) (value : string)
    (l1 : list WebElement) (x : WebElement) (l2 : list WebElement) (e : Exn) :
  forall t,
    (forall i elem,
       nth_error l1 i = Some elem ->
       on_send_keys browser (t ++ keystrokes value (firstn i l1)) elem value =
         Returned tt) ->
    on_send_keys browser (t ++ keystrokes value l1) x value = Raised e ->
    for_each (l1 ++ x :: l2) (fun elem => send_keys browser elem value) t =
      (Raised e, t ++ keystrokes value (l1 ++ [x])).
Proof.
  induction l1 as [| y l1 IH]; intros t Hok Hfail.
  - simpl app. rewrite for_each_send_keys_cons.
    simpl in Hfail. rewrite app_nil_r in Hfail. rewrite Hfail. reflexivity.
  - simpl app. rewrite for_each_send_keys_cons.
    pose proof (Hok 0 y eq_refl) as H0. simpl in H0. rewrite app_nil_r in H0.
    rewrite H0. rewrite IH.
    + unfold keystrokes. simpl. now rewrite <- app_assoc.
    + intros i elem Hi. rewrite <- app_assoc. apply (Hok (S i) elem Hi).
    + rewrite <- app_assoc. exact Hfail.
Qed.

(** A multi-arity write stops at the first element whose [send_keys]
    raises: the elements before it have been typed into, the elements after
    it have not, and the exception of the driver leaves the write. *)
Theorem multi_write_stops_at_failure :
  forall (browser : Browser) (self : PageElement) (inst : PageObject)
         (value : string) (t t1 : Trace) (l1 : list WebElement)
         (x : WebElement) (l2 : list WebElement) (e : Exn),
    cls self = MultiPageElement_cls ->
    has_context self = false ->
    PageElement__get__ browser self (Some inst) None t =
      (Returned (VList (l1 ++ x :: l2)), t1) ->
    (forall i elem,
       nth_error l1 i = Some elem ->
       on_send_keys browser (t1 ++ keystrokes value (firstn i l1)) elem value =
         Returned tt) ->
    on_send_keys browser (t1 ++ keystrokes value l1) x value = Raised e ->
    setattr browser self inst value t =
      (Raised e, t1 ++ keystrokes value (l1 ++ [x])).
Proof.
  intros browser self inst value t t1 l1 x l2 e Hcls Hctx Hread Hok Hfail.
  rewrite (setattr_after_read _ _ _ _ _ _ _ Hctx Hread). rewrite Hcls.
  assert (Ht : truthy (VList (l1 ++ x :: l2)) = true)
    by (destruct l1; reflexivity).
  rewrite Ht. unfold Value_send_keys_each.
  apply for_each_send_keys_stops; assumption.
Qed.

Lemma multi_write_stops_at_failure_witness :
  setattr Sample.page_locked_row Sample.rows Sample.my_page "x" [] =
    (Raised (WebDriverException "element not interactable"),
     [EFindElements (RootDriver Sample.firefox) TAG_NAME "tr";
      ESendKeys (Sample.node 3) "x"; ESendKeys (Sample.node 4) "x"]).
Proof.
  apply (multi_write_stops_at_failure Sample.page_locked_row Sample.rows
           Sample.my_page "x" []
           [EFindElements (RootDriver Sample.firefox) TAG_NAME "tr"]
           [Sample.node 3] (Sample.node 4) [Sample.node 5]
           (WebDriverException "element not interactable")
           eq_refl eq_refl eq_refl).
  - intros [| [| i]] elem Hi; simpl in Hi; try discriminate Hi.
    injection Hi as <-. reflexivity.
  - reflexivity.
Defined.

(** A write never returns without having typed: when it returns, the read
    found an element (single arity) or a sequence that is not empty (multi
    arity), and after the query of the read the trace holds the keystrokes
    of [value] to exactly those elements, in order. *)
Theorem setattr_returned_has_typed :
  forall (browser : Browser) (self : PageElement) (inst : PageObject)
         (value : string) (t : Trace),
    fst (setattr browser self inst value t) = Returned tt ->
    exists l,
      l <> []
      /\ match cls self with
         | PageElement_cls =>
             exists e,
               l = [e]
               /\ fst (PageElement__get__ browser self (Some inst) None t) =
                    Returned (VElement e)
         | MultiPageElement_cls =>
             fst (PageElement__get__ browser self (Some inst) None t) =
               Returned (VList l)
         end
      /\ snd (setattr browser self inst value t) =
           (t ++ [query_event self (RootDriver (w inst))])
             ++ keystrokes value l.
Proof.
  intros browser self inst value t Hret.
  destruct (has_context self) eqn:Hctx.
  - exfalso. revert Hret.
    unfold setattr, PageElement__set__, MultiPageElement__set__.
    rewrite Hctx. destruct (cls self); discriminate.
  - destruct (PageElement__get__ browser self (Some inst) None t)
      as [r t1] eqn:Hread.
    assert (Ht1 : t1 = t ++ [query_event self (RootDriver (w inst))]).
    { pose proof (PageElement__get___trace browser self inst None t) as Htr.
      rewrite Hread in Htr. apply Htr. rewrite Hctx. reflexivity. }
    destruct r as [v | e].
    2:{ exfalso. revert Hret.
        unfold setattr, PageElement__set__, MultiPageElement__set__.
        rewrite Hctx.
        destruct (cls self); rewrite (bind_raised _ _ _ _ _ Hread);
          discriminate. }
    rewrite (setattr_after_read _ _ _ _ _ _ _ Hctx Hread) in Hret |- *.
    subst t1. simpl fst.
    destruct (cls self) eqn:Hcls.
    + destruct v as [| b | e | l | s i]; simpl in Hret;
        try discriminate Hret;
        try (destruct b; discriminate Hret);
        try (destruct l; discriminate Hret).
      exists [e]. simpl.
      split; [discriminate |].
      split; [exists e; split; reflexivity | reflexivity].
    + destruct v as [| b | e | l | s i]; simpl in Hret;
        try discriminate Hret; try (destruct b; discriminate Hret).
      destruct l as [| x l]; [discriminate Hret |].
      exists (x :: l).
      split; [discriminate |]. split; [reflexivity |].
      change (truthy (VList (x :: l))) with true in *.
      unfold Value_send_keys_each in *.
      destruct (for_each_send_keys_prefix browser value (x :: l)
                  (t ++ [query_event self (RootDriver (w inst))]))
        as (k & _ & _ & Htr & Hall).
      rewrite Htr, (Hall Hret), firstn_all. reflexivity.
Qed.

Lemma setattr_returned_has_typed_witness :
  exists l,
    l <> []
    /\ fst (PageElement__get__ Sample.page Sample.rows (Some Sample.my_page)
              None []) = Returned (VList l)
    /\ snd (setattr Sample.page Sample.rows Sample.my_page "x" []) =
         ([] ++ [query_event Sample.rows (RootDriver (w Sample.my_page))])
           ++ keystrokes "x" l.
Proof.
  apply (setattr_returned_has_typed Sample.page Sample.rows Sample.my_page
           "x" []).
  reflexivity.
Defined.

(** ** Frames: failures and nesting *)

Lemma with__entered (browser : Browser) (cm : IframeElement) (body : M unit)
    (t : Trace) :
  on_switch_to_frame browser t (driver cm) (iframe cm) = Returned tt ->
  with_ browser cm body t =
  match body (t ++ [ESwitchToFrame (driver cm) (iframe cm)]) with
  | (r, t2) =>
      (match on_switch_to_default_content browser t2 (driver cm) with
       | Returned _ => r
       | Raised e => Raised e
       end,
       t2 ++ [ESwitchToDefaultContent (driver cm)])
  end.
Proof.
  intros Henter. unfold with_.
  rewrite IframeElement__enter___spec, Henter.
  destruct (body (t ++ [ESwitchToFrame (driver cm) (iframe cm)]))
    as [[[] | e] t2]; unfold bind; rewrite IframeElement__exit___spec; simpl;
    destruct (on_switch_to_default_content browser t2 (driver cm));
    reflexivity.
Qed.

(** When the frame switch of [__enter__] raises, the block does not run
    and no switch back to the default content is made: the statement ends
    with the exception of the driver after that one call. *)
Theorem with_frame_switch_raises :
  forall (browser : Browser) (cm : IframeElement) (body : M unit)
         (t : Trace) (e : Exn),
    on_switch_to_frame browser t (driver cm) (iframe cm) = Raised e ->
    with_ browser cm body t =
      (Raised e, t ++ [ESwitchToFrame (driver cm) (iframe cm)]).
Proof.
  intros browser cm body t e Henter. unfold with_.
  rewrite IframeElement__enter___spec, Henter. reflexivity.
Qed.

Lemma with_frame_switch_raises_witness :
  with_ Sample.page_no_frame
    {| iframe := Sample.node 9; driver := Sample.firefox |}
    Sample.failing_block [] =
  (Raised (WebDriverException "no such frame"),
   [ESwitchToFrame Sample.firefox (Sample.node 9)]).
Proof.
  apply (with_frame_switch_raises Sample.page_no_frame
           {| iframe := Sample.node 9; driver := Sample.firefox |}
           Sample.failing_block [] (WebDriverException "no such frame")).
  reflexivity.
Defined.

(** When the switch back of [__exit__] raises, its exception is what the
    statement ends with, whether the block returned or raised: an
    exception of the block is then lost. *)
Theorem with_switch_back_raises :
  forall (browser : Browser) (cm : IframeElement) (body : M unit)
         (t : Trace) (e : Exn),
    on_switch_to_frame browser t (driver cm) (iframe cm) = Returned tt ->
    on_switch_to_default_content browser
      (snd (body (t ++ [ESwitchToFrame (driver cm) (iframe cm)])))
      (driver cm) = Raised e ->
    with_ browser cm body t =
      (Raised e,
       snd (body (t ++ [ESwitchToFrame (driver cm) (iframe cm)]))
         ++ [ESwitchToDefaultContent (driver cm)]).
Proof.
  intros browser cm body t e Henter Hexit.
  rewrite with__entered by exact Henter.
  destruct (body (t ++ [ESwitchToFrame (driver cm) (iframe cm)])) as [r t2].
  simpl in Hexit. rewrite Hexit. reflexivity.
Qed.

Lemma with_switch_back_raises_witness :
  with_ Sample.page_closing
    {| iframe := Sample.node 9; driver := Sample.firefox |}
    Sample.failing_block [] =
  (Raised (WebDriverException "no such window"),
   [ESwitchToFrame Sample.firefox (Sample.node 9);
    ESendKeys (Sample.node 2) "x";
    ESwitchToDefaultContent Sample.firefox]).
Proof.
  apply (with_switch_back_raises Sample.page_closing
           {| iframe := Sample.node 9; driver := Sample.firefox |}
           Sample.failing_block [] (WebDriverException "no such window"));
    reflexivity.
Defined.

(** Frames are not tracked.  Inside the scope of a frame [outer], a nested
    scope of a frame [inner] that returns has ended with a switch to the
    default content, so that what follows it in the outer scope runs right
    after that switch, with no switch back into [outer]; the outer scope
    then ends with its own switch to the default content. *)
Theorem nested_frame_leaves_outer :
  forall (browser : Browser) (outer inner : IframeElement)
         (body1 body2 : M unit) (t t2 : Trace),
    on_switch_to_frame browser t (driver outer) (iframe outer) = Returned tt ->
    with_ browser inner body1
      (t ++ [ESwitchToFrame (driver outer) (iframe outer)]) =
      (Returned tt, t2) ->
    t2 =
      snd (body1 (t ++ [ESwitchToFrame (driver outer) (iframe outer);
                        ESwitchToFrame (driver inner) (iframe inner)]))
        ++ [ESwitchToDefaultContent (driver inner)]
    /\ snd (with_ browser outer (with_ browser inner body1 ;;; body2) t) =
         snd (body2 t2) ++ [ESwitchToDefaultContent (driver outer)].
Proof.
  intros browser outer inner body1 body2 t t2 Houter Hinner. split.
  - destruct (on_switch_to_frame browser
                (t ++ [ESwitchToFrame (driver outer) (iframe outer)])
                (driver inner) (iframe inner)) as [[] | e] eqn:Hin.
    + rewrite (with__entered _ _ _ _ Hin) in Hinner.
      rewrite <- app_assoc in Hinner. simpl in Hinner.
      destruct (body1 _) as [r t'].
      injection Hinner as _ <-. reflexivity.
    + unfold with_ in Hinner.
      rewrite IframeElement__enter___spec, Hin in Hinner.
      discriminate Hinner.
  - rewrite (with__entered _ _ _ _ Houter).
    rewrite (bind_returned _ _ _ _ _ Hinner).
    destruct (body2 t2) as [r t3]. reflexivity.
Qed.

Lemma nested_frame_leaves_outer_witness :
  snd (with_ Sample.page
         {| iframe := Sample.node 9; driver := Sample.firefox |}
         (with_ Sample.page
            {| iframe := Sample.node 10; driver := Sample.firefox |}
            (ret tt) ;;;
          send_keys Sample.page (Sample.node 2) "x") [])
  = [ESwitchToFrame Sample.firefox (Sample.node 9);
     ESwitchToFrame Sample.firefox (Sample.node 10);
     ESwitchToDefaultContent Sample.firefox;
     ESendKeys (Sample.node 2) "x";
     ESwitchToDefaultContent Sample.firefox].
Proof.
  destruct (nested_frame_leaves_outer Sample.page
              {| iframe := Sample.node 9; driver := Sample.firefox |}
              {| iframe := Sample.node 10; driver := Sample.firefox |}
              (ret tt) (send_keys Sample.page (Sample.node 2) "x") []
              [ESwitchToFrame Sample.firefox (Sample.node 9);
               ESwitchToFrame Sample.firefox (Sample.node 10);
               ESwitchToDefaultContent Sample.firefox]
              eq_refl eq_refl) as [_ H].
  rewrite H. reflexivity.
Defined.

(** ** The registry is one to one *)

Lemma _LOCATOR_MAP_injective (k1 k2 : string) (by_ : By) :
  dict_get _LOCATOR_MAP k1 = Some by_ ->
  dict_get _LOCATOR_MAP k2 = Some by_ ->
  k1 = k2.
Proof.
  unfold _LOCATOR_MAP. simpl. intros H1 H2.
  repeat match type of H1 with
         | context [String.eqb ?k ?s] => destruct (String.eqb_spec k s)
         end;
  repeat match type of H2 with
         | context [String.eqb ?k ?s] => destruct (String.eqb_spec k s)
         end;
  congruence.
Qed.

(** No two keywords of the registry share a strategy: two bindings that
    were constructed with the same locator were declared with the same
    keyword and the same selector. *)
Theorem locator_determines_keyword :
  forall (cls1 cls2 : Class) (c1 c2 : bool)
         (wc1 wc2 : option ExpectedCondition) (wt1 wt2 : Z)
         (k1 v1 k2 v2 : string) (self1 self2 : PageElement),
    PageElement__init__ cls1 c1 wc1 wt1 [(k1, v1)] = Returned self1 ->
    PageElement__init__ cls2 c2 wc2 wt2 [(k2, v2)] = Returned self2 ->
    locator self1 = locator self2 ->
    k1 = k2 /\ v1 = v2.
Proof.
  intros cls1 cls2 c1 c2 wc1 wc2 wt1 wt2 k1 v1 k2 v2 self1 self2 H1 H2 Hloc.
  rewrite PageElement__init___one in H1, H2.
  destruct (dict_get _LOCATOR_MAP k1) as [b1 |] eqn:E1; [| discriminate H1].
  destruct (dict_get _LOCATOR_MAP k2) as [b2 |] eqn:E2; [| discriminate H2].
  injection H1 as <-. injection H2 as <-. simpl in Hloc.
  injection Hloc as Hb Hv. subst b2.
  split; [exact (_LOCATOR_MAP_injective k1 k2 b1 E1 E2) | exact Hv].
Qed.

Lemma locator_determines_keyword_witness :
  "tag_name" = "tag_name" /\ "tr" = "tr".
Proof.
  apply (locator_determines_keyword PageElement_cls MultiPageElement_cls
           true false None None 3%Z 5%Z "tag_name" "tr" "tag_name" "tr"
           (mkPageElement PageElement_cls (TAG_NAME, "tr") true None 3)
           Sample.rows eq_refl eq_refl eq_refl).
Defined.

(** ** Construction and navigation together *)

(** What [get] requests for an instance as [__init__] built it: the
    explicit base URI when it is a string that is not empty; otherwise,
    for [None] and for the empty string alike, the [root_uri] of the driver
    when it is a string, and nothing when the driver has none or has
    [None]; then the path.  The request goes to the driver the instance was
    built with, and its outcome is the outcome of [get]. *)
Theorem PageObject_navigation :
  forall (browser : Browser) (d : WebDriver) (explicit : option string)
         (p : string) (t : Trace),
    let base :=
      match explicit with
      | Some (String c s) => String c s
      | _ => match attr_root_uri d with
             | Some (Some R) => R
             | _ => ""
             end
      end in
    PageObject_get browser (PageObject__init__ d explicit) p t =
      (on_get browser t d (base ++ p), t ++ [EGet d (base ++ p)]).
Proof.
  intros browser d explicit p t. simpl.
  unfold PageObject_get, webdriver_get. rewrite or_str_default.
  destruct explicit as [[| c s] |]; destruct d as [n [[R |] |]]; reflexivity.
Qed.
